(** * MyPMM: a verification model of [my_pmm.py]

    The strategy of [my_pmm.py] quotes a two-sided market around a reference
    price.  Its numbers are of two kinds, and the model keeps both as the
    program has them:

    - Python [float] (and numpy [float64]) values are IEEE 754 binary64
      numbers: [spec_float] of the Standard Library with [prec = 53] and
      [emax = 1024], whose operations round to nearest, ties to even;
    - [decimal.Decimal] values are a sign, a coefficient and an exponent (or
      an infinity, or a quiet NaN), and every arithmetic operation rounds its
      exact result to the 28 significant digits of Python's default context,
      ties to even.  The exponent bounds of that context (|exponent| up to
      999999) are far outside the quantities handled here and are left out:
      a finite [Decimal] carries an unbounded exponent.

    Exceptions are values of [exn]; code that may raise returns a [result].
    The calls a tick makes on the connector (cancel, buy, sell) are listed in
    the order they are made, next to the fields the tick leaves behind.

    The file has two parts: the definitions (floats, decimals, the strategy
    and a few concrete markets), then the properties. *)

From Stdlib Require Import ZArith NArith List Bool String Lia.
From Stdlib Require Import SpecFloat PrimFloat FloatOps.
Import ListNotations.

Local Open Scope Z_scope.

(** ** Exceptions *)

Inductive exn : Type :=
| LookupError         (* [.iloc] out of bounds (an IndexError) *)
| InvalidOperation    (* decimal: 0 * Infinity, Infinity - Infinity, ... *)
| DivisionByZero.     (* decimal: x / 0 *)

Inductive result (A : Type) : Type :=
| Ok (a : A)
| Raise (e : exn).

Arguments Ok {A} a.
Arguments Raise {A} e.

Definition bind {A B : Type} (c : result A) (k : A -> result B) : result B :=
  match c with
  | Ok a => k a
  | Raise e => Raise e
  end.

Notation "x <- c ;; k" := (bind c (fun x => k))
  (at level 61, c at next level, right associativity).

(** ** Python floats: binary64 *)

Module Float.

Definition float : Type := spec_float.

Definition prec : Z := 53.
Definition emax : Z := 1024.

Definition add : float -> float -> float := SFadd prec emax.
Definition div : float -> float -> float := SFdiv prec emax.

(** [a < b], [a <= b] and [a > b] of Python; all false on a NaN. *)
Definition lt (a b : float) : bool := SFltb a b.
Definition le (a b : float) : bool := SFleb a b.
Definition gt (a b : float) : bool := lt b a.

(** The float literals of the source, each the binary64 number nearest to
    the decimal literal. *)
Definition f0      : float := S754_zero false.
Definition f1      : float := S754_finite false 4503599627370496 (-52).
Definition f10     : float := S754_finite false 5629499534213120 (-49).
Definition f100    : float := S754_finite false 7036874417766400 (-46).
Definition f0_5    : float := S754_finite false 4503599627370496 (-53).
Definition f0_3    : float := S754_finite false 5404319552844595 (-54).
Definition f0_7    : float := S754_finite false 6305039478318694 (-53).
Definition f0_8    : float := S754_finite false 7205759403792794 (-53).
Definition f0_9    : float := S754_finite false 8106479329266893 (-53).
Definition f0_01   : float := S754_finite false 5764607523034235 (-59).
Definition f0_0001 : float := S754_finite false 7378697629483821 (-66).

Definition finite_or_inf (s : bool) (m e : Z) : float :=
  if e <=? emax - prec then S754_finite s (Z.to_pos m) e else S754_infinity s.

(** The binary64 number nearest to [(-1)^s * n / d] for [0 < n] and
    [0 < d], ties to even: the binary exponent [e] is the one at which
    [n / (d * 2^e)] has 53 bits (or the least exponent, -1074), and the
    quotient at that exponent is rounded once. *)
Definition of_ratio (s : bool) (n d : Z) : float :=
  let e1 := Z.max (Z.log2 n - Z.log2 d - prec) (3 - emax - prec) in
  let q1 := if e1 <? 0 then (n * 2 ^ (- e1)) / d else n / (d * 2 ^ e1) in
  let e := if 2 ^ prec <=? q1 then e1 + 1 else e1 in
  let num := if e <? 0 then n * 2 ^ (- e) else n in
  let den := if e <? 0 then d else d * 2 ^ e in
  let q := num / den in
  let r := num mod den in
  let m := match 2 * r ?= den with
           | Lt => q
           | Gt => q + 1
           | Eq => if Z.even q then q else q + 1
           end in
  if m =? 0 then S754_zero s
  else if 2 ^ prec <=? m then finite_or_inf s (2 ^ (prec - 1)) (e + 1)
  else finite_or_inf s m e.


(** A finite float other than zero. *)
Definition finite_nonzero (f : float) : bool :=
  match f with
  | S754_finite _ _ _ => true
  | _ => false
  end.

End Float.

(** ** decimal.Decimal *)

Module Dec.

(** A finite number is [(-1)^sign * coeff * 10^exp]. *)
Inductive Decimal : Type :=
| DFin (sign : bool) (coeff : N) (exp : Z)
| DInf (sign : bool)
| DNaN.

(** The default context: [prec = 28], [rounding = ROUND_HALF_EVEN]. *)
Definition prec : Z := 28.

Fixpoint ndigits_fuel (fuel : nat) (c : N) : Z :=
  match fuel with
  | O => 1
  | S f => if (c <? 10)%N then 1 else 1 + ndigits_fuel f (c / 10)%N
  end.

(** [len(str(c))]: the number of decimal digits of [c] (1 for 0). *)
Definition ndigits (c : N) : Z := ndigits_fuel (N.to_nat (N.log2 c)) c.

(** [c / 10^k] rounded to an integer, ties to even. *)
Definition round_half_even (c : N) (k : N) : N :=
  let p := (10 ^ k)%N in
  let q := (c / p)%N in
  let r := (c mod p)%N in
  match (2 * r ?= p)%N with
  | Lt => q
  | Gt => (q + 1)%N
  | Eq => if N.even q then q else (q + 1)%N
  end.

(** [Decimal._fix]: round to the context's precision.  (Python also brings
    the exponent of a zero inside the context's bounds; the bounds are not
    modelled.) *)
Definition fix_ (s : bool) (c : N) (e : Z) : Decimal :=
  if (c =? 0)%N then DFin s 0 e
  else
    let exp_min := ndigits c + e - prec in
    if e <? exp_min then
      let c' := round_half_even c (Z.to_N (exp_min - e)) in
      if prec <? ndigits c' then DFin s (c' / 10)%N (exp_min + 1)
      else DFin s c' exp_min
    else DFin s c e.

Definition signed (s : bool) (c : N) : Z :=
  if s then - Z.of_N c else Z.of_N c.

Definition neg (x : Decimal) : Decimal :=
  match x with
  | DFin s c e => DFin (negb s) c e
  | DInf s => DInf (negb s)
  | DNaN => DNaN
  end.





(** The product of two finite decimals before any rounding. *)
Definition exact_mul (x y : Decimal) : Decimal :=
  match x, y with
  | DFin sx cx ex, DFin sy cy ey => DFin (xorb sx sy) (cx * cy)%N (ex + ey)
  | _, _ => DNaN
  end.

(** [x * y].  For every operation below: a NaN operand gives NaN, the
    invalid combinations of infinities and zeros raise, and the exact result
    on finite operands goes through [fix_]. *)
Definition mul (x y : Decimal) : result Decimal :=
  match x, y with
  | DNaN, _ | _, DNaN => Ok DNaN
  | DInf sx, DInf sy => Ok (DInf (xorb sx sy))
  | DInf sx, DFin sy cy _ =>
      if (cy =? 0)%N then Raise InvalidOperation else Ok (DInf (xorb sx sy))
  | DFin sx cx _, DInf sy =>
      if (cx =? 0)%N then Raise InvalidOperation else Ok (DInf (xorb sx sy))
  | DFin sx cx ex, DFin sy cy ey =>
      Ok (fix_ (xorb sx sy) (cx * cy)%N (ex + ey))
  end.

(** [x + y] *)
Definition add (x y : Decimal) : result Decimal :=
  match x, y with
  | DNaN, _ | _, DNaN => Ok DNaN
  | DInf sx, DInf sy =>
      if Bool.eqb sx sy then Ok x else Raise InvalidOperation
  | DInf _, DFin _ _ _ => Ok x
  | DFin _ _ _, DInf _ => Ok y
  | DFin sx cx ex, DFin sy cy ey =>
      let e := Z.min ex ey in
      let z := signed sx (cx * 10 ^ Z.to_N (ex - e))%N
               + signed sy (cy * 10 ^ Z.to_N (ey - e))%N in
      let s := if z =? 0
               then (cx =? 0)%N && (cy =? 0)%N && sx && sy
               else z <? 0 in
      Ok (fix_ s (Z.abs_N z) e)
  end.

(** [x - y] *)
Definition sub (x y : Decimal) : result Decimal := add x (neg y).

(** [Decimal(n)] for a Python int [n]. *)
Definition of_int (n : Z) : Decimal := DFin (n <? 0) (Z.abs_N n) 0.

Fixpoint strip_twos (fuel : nat) (m : positive) (k : Z) : positive * Z :=
  match fuel, m with
  | S f, xO m' => if 0 <? k then strip_twos f m' (k - 1) else (m, k)
  | _, _ => (m, k)
  end.

(** [Decimal(f)] for a float [f]: the exact value of [f].  As
    [Decimal.from_float] does, [m * 2^e] is first put in lowest terms
    [n / 2^k] and then written [n * 5^k * 10^(-k)]. *)
Definition from_float (f : Float.float) : Decimal :=
  match f with
  | S754_zero s => DFin s 0 0
  | S754_infinity s => DInf s
  | S754_nan => DNaN
  | S754_finite s m e =>
      if 0 <=? e then DFin s (Npos m * 2 ^ Z.to_N e)%N 0
      else
        let '(n, k) := strip_twos (Pos.to_nat (digits2_pos m)) m (- e) in
        DFin s (Npos n * 5 ^ Z.to_N k)%N (- k)
  end.

Fixpoint strip_zeros (fuel : nat) (c : N) (e ideal : Z) : N * Z :=
  match fuel with
  | O => (c, e)
  | S f =>
      if (e <? ideal) && (c mod 10 =? 0)%N
      then strip_zeros f (c / 10)%N (e + 1) ideal
      else (c, e)
  end.

(** The least exponent of the default context, [Emin - prec + 1]. *)
Definition Etiny : Z := -999999 - prec + 1.

(** [x / y] *)
Definition div (x y : Decimal) : result Decimal :=
  match x, y with
  | DNaN, _ | _, DNaN => Ok DNaN
  | DInf _, DInf _ => Raise InvalidOperation
  | DInf sx, DFin sy _ _ => Ok (DInf (xorb sx sy))
  | DFin sx _ _, DInf sy => Ok (DFin (xorb sx sy) 0 Etiny)
  | DFin sx cx ex, DFin sy cy ey =>
      let s := xorb sx sy in
      if (cy =? 0)%N then
        if (cx =? 0)%N then Raise InvalidOperation else Raise DivisionByZero
      else if (cx =? 0)%N then Ok (fix_ s 0 (ex - ey))
      else
        let shift := ndigits cy - ndigits cx + prec + 1 in
        let e := ex - ey - shift in
        let num := if 0 <=? shift then (cx * 10 ^ Z.to_N shift)%N else cx in
        let den := if 0 <=? shift then cy else (cy * 10 ^ Z.to_N (- shift))%N in
        let q := (num / den)%N in
        let r := (num mod den)%N in
        if (r =? 0)%N then
          let '(q', e') := strip_zeros (Z.to_nat (ex - ey - e)) q e (ex - ey) in
          Ok (fix_ s q' e')
        else
          Ok (fix_ s (if (q mod 5 =? 0)%N then q + 1 else q)%N e)
  end.

(** [x == y] for finite or special decimals (a NaN equals nothing). *)
Definition eqb (x y : Decimal) : bool :=
  match x, y with
  | DNaN, _ | _, DNaN => false
  | DInf sx, DInf sy => Bool.eqb sx sy
  | DInf _, DFin _ _ _ | DFin _ _ _, DInf _ => false
  | DFin sx cx ex, DFin sy cy ey =>
      let e := Z.min ex ey in
      signed sx (cx * 10 ^ Z.to_N (ex - e))%N
      =? signed sy (cy * 10 ^ Z.to_N (ey - e))%N
  end.

(** [float(x)]: the binary64 number nearest to [x]. *)
Definition to_float (x : Decimal) : Float.float :=
  match x with
  | DNaN => S754_nan
  | DInf s => S754_infinity s
  | DFin s c e =>
      if (c =? 0)%N then S754_zero s
      else if 0 <=? e then Float.of_ratio s (Z.of_N c * 10 ^ e) 1
      else Float.of_ratio s (Z.of_N c) (10 ^ (- e))
  end.

(** A finite decimal other than zero. *)
Definition finite_nonzero (x : Decimal) : bool :=
  match x with
  | DFin _ c _ => negb (c =? 0)%N
  | _ => false
  end.


End Dec.


(** ** The strategy *)

Module MyPMM.

Import Dec.
Import Float (float).

(** *** Types of the market-access layer *)

Inductive TradeType : Type := BUY | SELL | RANGE.
Inductive OrderType : Type := MARKET | LIMIT | LIMIT_MAKER.

Record OrderCandidate : Type := {
  trading_pair : string;
  is_maker : bool;
  order_type : OrderType;
  order_side : TradeType;
  amount : Decimal;
  price : Decimal
}.

(** A row of the candles frame after [get_candles_with_features]: the
    close price with the two indicator columns.  The frame is taken with
    both columns filled in; what [pandas_ta] computes for them is outside
    the model. *)
Record Candle : Type := {
  close : float;
  RSI_30 : float;
  NATR_30 : float
}.

(** An open order, as [get_active_orders] lists it. *)
Record ActiveOrder : Type := {
  ao_trading_pair : string;
  client_order_id : string
}.

(** What a tick reads from outside the strategy: the clock, the mid price
    and the balances of the connector, the candles frame, the open orders
    and the connector's budget checker ([adjust_candidates] with
    [all_or_none=True], any function from proposals to proposals). *)
Record Market : Type := {
  current_timestamp : float;
  mid_price : Decimal;
  base_balance : Decimal;
  quote_balance : Decimal;
  candles_df : list Candle;
  active_orders : list ActiveOrder;
  adjust_candidates : list OrderCandidate -> list OrderCandidate
}.

(** The class attributes the decision logic reads.  [order_refresh_time]
    is the int 10 of the source as the float it becomes when it is added to
    the clock. *)
Record Config : Type := {
  bid_spread : float;
  ask_spread : float;
  order_refresh_time : float;
  order_amount : float;
  pair : string;
  exchange : string
}.

Definition config : Config := {|
  bid_spread := Float.f0_0001;
  ask_spread := Float.f0_0001;
  order_refresh_time := Float.f10;
  order_amount := Float.f0_01;
  pair := "ETH-USDT";
  exchange := "binance_paper_trade"
|}.

Record TradeRecord : Type := {
  tr_timestamp : float;
  tr_type : TradeType;
  tr_price : Decimal
}.

(** The instance fields the strategy mutates. *)
Record Strategy : Type := {
  create_timestamp : float;
  trade_history : list TradeRecord
}.

(** The calls a tick makes on the connector. *)
Inductive Action : Type :=
| Cancel (connector_name pair : string) (order_id : string)
| Buy (connector_name pair : string) (amount : Decimal)
      (order_type : OrderType) (price : Decimal)
| Sell (connector_name pair : string) (amount : Decimal)
       (order_type : OrderType) (price : Decimal).

(** What a method call leaves behind: the strategy's fields, the calls
    made, and the exception it ended with, if any. *)
Record Outcome : Type := {
  state : Strategy;
  actions : list Action;
  raised : option exn
}.

Section Methods.

Variable cfg : Config.

(** [l.iloc[-k]] for [k >= 1]: the [k]-th element from the end, an
    [IndexError] when there are fewer than [k]. *)
Definition iloc_neg {A : Type} (l : list A) (k : nat) : result A :=
  match nth_error (rev l) (k - 1) with
  | Some a => Ok a
  | None => Raise LookupError
  end.

(** [get_inventory_ratio], lines 172-183. *)
Definition get_inventory_ratio (m : Market) : result float :=
  base_value <- mul (base_balance m) (mid_price m) ;;
  total_value <- add base_value (quote_balance m) ;;
  if eqb total_value (of_int 0) then Ok Float.f0_5
  else
    q <- div base_value total_value ;;
    Ok (to_float q).

(** Lines 84-86: the volatility-adjusted spreads. *)
Definition volatility_spreads (natr : float) : result (Decimal * Decimal) :=
  let spread_multiplier :=
    from_float (Float.add Float.f1 (Float.div natr Float.f100)) in
  bid <- mul (from_float (bid_spread cfg)) spread_multiplier ;;
  ask <- mul (from_float (ask_spread cfg)) spread_multiplier ;;
  Ok (bid, ask).

(** Lines 89-90: [(bearish_divergence, bullish_divergence)]. *)
Definition divergence (rsi rsi_prev price price_prev : float) : bool * bool :=
  (Float.lt rsi rsi_prev && Float.gt price price_prev,
   Float.gt rsi rsi_prev && Float.lt price price_prev).

(** Lines 93-96: the inventory skew, an [if]/[elif]. *)
Definition skew (inventory_ratio : float) (bearish bullish : bool)
    (bid ask : Decimal) : result (Decimal * Decimal) :=
  if Float.gt inventory_ratio Float.f0_7 && bearish then
    ask' <- mul ask (from_float Float.f0_9) ;;
    Ok (bid, ask')
  else if Float.lt inventory_ratio Float.f0_3 && bullish then
    bid' <- mul bid (from_float Float.f0_9) ;;
    Ok (bid', ask)
  else Ok (bid, ask).

Definition candidate (side : TradeType) (p : Decimal) : OrderCandidate := {|
  trading_pair := pair cfg;
  is_maker := true;
  order_type := LIMIT;
  order_side := side;
  amount := from_float (order_amount cfg);
  price := p
|}.

(** Lines 98-107: the two order candidates. *)
Definition build_orders (ref_price bid ask : Decimal)
    : result (list OrderCandidate) :=
  one_minus <- sub (of_int 1) bid ;;
  buy_price <- mul ref_price one_minus ;;
  one_plus <- add (of_int 1) ask ;;
  sell_price <- mul ref_price one_plus ;;
  Ok [candidate BUY buy_price; candidate SELL sell_price].

(** [create_proposal], lines 72-107.  ([print] writes to the standard
    output only and is left out.) *)
Definition create_proposal (m : Market) : result (list OrderCandidate) :=
  let ref_price := mid_price m in
  inventory_ratio <- get_inventory_ratio m ;;
  let df := candles_df m in
  rsi <- iloc_neg (map RSI_30 df) 1 ;;
  rsi_prev <- iloc_neg (map RSI_30 df) 2 ;;
  price <- iloc_neg (map close df) 1 ;;
  price_prev <- iloc_neg (map close df) 2 ;;
  natr <- iloc_neg (map NATR_30 df) 1 ;;
  spreads <- volatility_spreads natr ;;
  let '(bearish, bullish) := divergence rsi rsi_prev price price_prev in
  spreads' <- skew inventory_ratio bearish bullish (fst spreads) (snd spreads) ;;
  build_orders ref_price (fst spreads') (snd spreads').

(** [adjust_proposal_to_budget], lines 109-112. *)
Definition adjust_proposal_to_budget (m : Market)
    (proposal : list OrderCandidate) : list OrderCandidate :=
  adjust_candidates m proposal.

(** [place_order], lines 118-124. *)
Definition place_order (order : OrderCandidate) : list Action :=
  match order_side order with
  | SELL => [Sell (exchange cfg) (trading_pair order) (amount order)
                  (order_type order) (price order)]
  | BUY => [Buy (exchange cfg) (trading_pair order) (amount order)
                (order_type order) (price order)]
  | RANGE => []
  end.

(** [place_orders], lines 114-116. *)
Definition place_orders (proposal : list OrderCandidate) : list Action :=
  flat_map place_order proposal.

(** [cancel_all_orders], lines 126-128. *)
Definition cancel_all_orders (m : Market) : list Action :=
  map (fun o => Cancel (exchange cfg) (ao_trading_pair o) (client_order_id o))
      (active_orders m).

(** [on_tick], lines 58-64.  An exception of [create_proposal] leaves
    [on_tick] after the cancellations and before anything else. *)
Definition on_tick (m : Market) (st : Strategy) : Outcome :=
  if Float.le (create_timestamp st) (current_timestamp m) then
    let cancels := cancel_all_orders m in
    match create_proposal m with
    | Raise e => {| state := st; actions := cancels; raised := Some e |}
    | Ok proposal =>
        let proposal_adjusted := adjust_proposal_to_budget m proposal in
        {| state := {| create_timestamp :=
                         Float.add (order_refresh_time cfg) (current_timestamp m);
                       trade_history := trade_history st |};
           actions := cancels ++ place_orders proposal_adjusted;
           raised := None |}
    end
  else {| state := st; actions := []; raised := None |}.

(** [did_fill_order], lines 130-135: the only writer of [trade_history]. *)
Definition did_fill_order (m : Market) (side : TradeType) (p : Decimal)
    (st : Strategy) : Strategy :=
  {| create_timestamp := create_timestamp st;
     trade_history := trade_history st
                      ++ [{| tr_timestamp := current_timestamp m;
                             tr_type := side;
                             tr_price := p |}] |}.

End Methods.

(** *** Reporting: [format_status] and [plot_candle_signals] *)

Section Reporting.

(** The class attributes [display_rows] and [candles_length]. *)
Definition display_rows : nat := 5.
Definition candles_length : nat := 30.

(** [df.tail(n)]: the last [n] rows, all of them when there are fewer. *)
Definition tail {A : Type} (n : nat) (l : list A) : list A :=
  skipn (List.length l - n) l.

(** Line 161 of [format_status]: the rows of the candles frame that the
    status shows, [tail(min(display_rows, candles_length)).iloc[::-1]]. *)
Definition display_df (df : list Candle) : list Candle :=
  rev (tail (Nat.min display_rows candles_length) df).









End Reporting.

(** *** Concrete markets *)

Module Scenario.

Definition dec (c : N) (e : Z) : Decimal := DFin false c e.

(** Two candles with the same close and momentum: no divergence. *)
Definition flat (natr : float) : Candle :=
  {| close := Float.f100; RSI_30 := Float.f10; NATR_30 := natr |}.

(** Momentum falls from 100 to 10 while the close rises from 10 to 100. *)
Definition bearish_pair : list Candle :=
  [ {| close := Float.f10; RSI_30 := Float.f100; NATR_30 := Float.f0 |};
    {| close := Float.f100; RSI_30 := Float.f10; NATR_30 := Float.f0 |} ].

Definition an_order : ActiveOrder :=
  {| ao_trading_pair := "ETH-USDT"; client_order_id := "buy-1" |}.

(** Mid price 100, one unit of base and 100 of quote (ratio 0.5), zero
    volatility, no divergence. *)
Definition calm : Market := {|
  current_timestamp := Float.f100;
  mid_price := dec 100 0;
  base_balance := dec 1 0;
  quote_balance := dec 100 0;
  candles_df := [flat Float.f0; flat Float.f0];
  active_orders := [an_order];
  adjust_candidates := fun proposal => proposal
|}.

(** As [calm], with four units of base (ratio 0.8) and a bearish
    divergence. *)
Definition heavy_bearish : Market := {|
  current_timestamp := Float.f100;
  mid_price := dec 100 0;
  base_balance := dec 4 0;
  quote_balance := dec 100 0;
  candles_df := bearish_pair;
  active_orders := [an_order];
  adjust_candidates := fun proposal => proposal
|}.

(** As [calm], with a single candle. *)
Definition one_candle : Market := {|
  current_timestamp := Float.f100;
  mid_price := dec 100 0;
  base_balance := dec 1 0;
  quote_balance := dec 100 0;
  candles_df := [flat Float.f0];
  active_orders := [an_order];
  adjust_candidates := fun proposal => proposal
|}.

(** As [calm], with a budget checker that keeps nothing. *)
Definition broke : Market := {|
  current_timestamp := Float.f100;
  mid_price := dec 100 0;
  base_balance := dec 1 0;
  quote_balance := dec 100 0;
  candles_df := [flat Float.f0; flat Float.f0];
  active_orders := [an_order];
  adjust_candidates := fun _ => []
|}.

(** A strategy whose timer is due at time 100, and one whose timer is
    not. *)
Definition due : Strategy :=
  {| create_timestamp := Float.f10; trade_history := [] |}.

Definition waiting : Strategy :=
  {| create_timestamp := Float.add Float.f100 Float.f10; trade_history := [] |}.

(** As [calm], while the indicators are still warming up: every indicator
    value is a NaN. *)
Definition warming_up : Market := {|
  current_timestamp := Float.f100;
  mid_price := dec 100 0;
  base_balance := dec 1 0;
  quote_balance := dec 100 0;
  candles_df := [ {| close := Float.f100; RSI_30 := S754_nan; NATR_30 := S754_nan |};
                  {| close := Float.f100; RSI_30 := S754_nan; NATR_30 := S754_nan |} ];
  active_orders := [an_order];
  adjust_candidates := fun proposal => proposal
|}.




End Scenario.

End MyPMM.

(** * Properties *)

Import Dec MyPMM.

Arguments fix_ : simpl never.
Arguments from_float : simpl never.
Arguments to_float : simpl never.
Arguments Float.add : simpl never.
Arguments Float.div : simpl never.
Arguments Float.of_ratio : simpl never.

#[local] Set Warnings "-inexact-float".

(** ** The float literals and the decimal model on the source's constants *)

Example float_literal_0_0001 : Prim2SF 0.0001%float = Float.f0_0001.
Proof. vm_compute. reflexivity. Qed.

Example float_literal_0_01 : Prim2SF 0.01%float = Float.f0_01.
Proof. vm_compute. reflexivity. Qed.

Example float_literal_0_9 : Prim2SF 0.9%float = Float.f0_9.
Proof. vm_compute. reflexivity. Qed.

Example float_literal_0_7 : Prim2SF 0.7%float = Float.f0_7.
Proof. vm_compute. reflexivity. Qed.

Example float_literal_0_3 : Prim2SF 0.3%float = Float.f0_3.
Proof. vm_compute. reflexivity. Qed.

Example float_literal_0_5 : Prim2SF 0.5%float = Float.f0_5.
Proof. vm_compute. reflexivity. Qed.

Example float_literal_ints :
  Prim2SF 1%float = Float.f1 /\ Prim2SF 10%float = Float.f10
  /\ Prim2SF 100%float = Float.f100.
Proof. vm_compute. repeat split. Qed.

Example from_float_0_0001 :
  from_float Float.f0_0001
  = DFin false 100000000000000004792173602385929598312941379845142364501953125 (-66).
Proof. vm_compute. reflexivity. Qed.

Example from_float_0_9 :
  from_float Float.f0_9
  = DFin false 90000000000000002220446049250313080847263336181640625 (-53).
Proof. vm_compute. reflexivity. Qed.

Example to_float_0_8 : to_float (DFin false 8 (-1)) = Float.f0_8.
Proof. vm_compute. reflexivity. Qed.

(** The decimal operations on values computed with CPython's [decimal]:
    ties go to the even digit, a carry out of the 28th digit moves the
    exponent, an exact quotient drops its zeros, the sum of opposite numbers
    is a positive zero. *)
Example mul_tie_down :
  mul (DFin false 12345678901234567890123456785 0) (of_int 1)
  = Ok (DFin false 1234567890123456789012345678 1).
Proof. vm_compute. reflexivity. Qed.

Example mul_tie_up :
  mul (DFin false 12345678901234567890123456775 0) (of_int 1)
  = Ok (DFin false 1234567890123456789012345678 1).
Proof. vm_compute. reflexivity. Qed.

Example add_carry :
  add (DFin false 99999999999999999999999999995 0) (of_int 0)
  = Ok (DFin false 1000000000000000000000000000 2).
Proof. vm_compute. reflexivity. Qed.

Example add_opposite :
  add (DFin false 99999 (-24)) (DFin true 99999 (-24)) = Ok (DFin false 0 (-24)).
Proof. vm_compute. reflexivity. Qed.

Example sub_far_apart :
  sub (DFin false 2 (-54)) (DFin true 1154959193448909171610518187013557121443 (-44))
  = Ok (DFin false 1154959193448909171610518187 (-32)).
Proof. vm_compute. reflexivity. Qed.

Example div_third : div (of_int 1) (of_int 3)
  = Ok (DFin false 3333333333333333333333333333 (-28)).
Proof. vm_compute. reflexivity. Qed.

Example div_two_thirds : div (of_int 2) (of_int 3)
  = Ok (DFin false 6666666666666666666666666667 (-28)).
Proof. vm_compute. reflexivity. Qed.

Example div_exact : div (DFin false 1 2) (of_int 100) = Ok (DFin false 1 0).
Proof. vm_compute. reflexivity. Qed.

Example div_by_zero :
  div (of_int 1) (of_int 0) = Raise DivisionByZero
  /\ div (of_int 0) (of_int 0) = Raise InvalidOperation
  /\ mul (DInf false) (of_int 0) = Raise InvalidOperation
  /\ sub (DInf false) (DInf false) = Raise InvalidOperation.
Proof. vm_compute. repeat split. Qed.

(** [float(Decimal)] on values computed with CPython: a tie between two
    floats goes to the even one, the least subnormal, the overflow to
    infinity. *)
Example to_float_ties :
  to_float (DFin false 9007199254740993 0) = S754_finite false 4503599627370496 1
  /\ to_float (DFin false 9007199254740995 0) = S754_finite false 4503599627370498 1.
Proof. vm_compute. repeat split. Qed.

Example to_float_subnormal :
  to_float (DFin false 49 (-325)) = S754_finite false 1 (-1074)
  /\ to_float (DFin false 24703282292062327 (-340)) = S754_zero false.
Proof. vm_compute. repeat split. Qed.

Example to_float_overflow :
  to_float (DFin false 17976931348623158 292)
  = S754_finite false 9007199254740991 971
  /\ to_float (DFin false 17976931348623159 292) = S754_infinity false.
Proof. vm_compute. repeat split. Qed.

Example to_float_third :
  to_float (DFin false 3333333333333333333333333333 (-28))
  = S754_finite false 6004799503160661 (-54).
Proof. vm_compute. reflexivity. Qed.

Example inventory_ratio_heavy :
  get_inventory_ratio Scenario.heavy_bearish = Ok Float.f0_8.
Proof. vm_compute. reflexivity. Qed.

(** ** Float comparisons *)

Section FloatOrder.

Lemma SFcompare_antisym (a b : spec_float) (c : comparison) :
  SFcompare a b = Some c -> SFcompare b a = Some (CompOpp c).
Proof.
  destruct a as [sa|sa| |sa ma ea], b as [sb|sb| |sb mb eb]; simpl;
    try discriminate;
    try (destruct sa); try (destruct sb);
    intros H; inversion H; subst; clear H; try reflexivity.
  all: rewrite (Z.compare_antisym ea eb);
    destruct (ea ?= eb); simpl; try reflexivity.
  all: rewrite !Pos.compare_cont_spec; simpl;
    rewrite (Pos.compare_antisym ma mb);
    destruct (ma ?= mb)%positive; reflexivity.
Qed.

Lemma lt_not_le (a b : spec_float) :
  Float.lt a b = true -> Float.le b a = false.
Proof.
  unfold Float.lt, Float.le, SFltb, SFleb.
  destruct (SFcompare a b) as [c|] eqn:E; try discriminate.
  rewrite (SFcompare_antisym _ _ _ E).
  destruct c; simpl; try discriminate; reflexivity.
Qed.

Lemma lt_asym (a b : spec_float) :
  Float.lt a b = true -> Float.lt b a = false.
Proof.
  unfold Float.lt, SFltb.
  destruct (SFcompare a b) as [c|] eqn:E; try discriminate.
  rewrite (SFcompare_antisym _ _ _ E).
  destruct c; simpl; try discriminate; reflexivity.
Qed.

End FloatOrder.

(** ** Divergence (lines 88-90) *)

(** C6: over two consecutive candles [prev] and [cur], [bearish_divergence]
    holds exactly when the momentum strictly decreases while the close
    strictly increases, [bullish_divergence] exactly when the momentum
    strictly increases while the close strictly decreases, both are false
    when neither holds, and they are never both true. *)
Theorem divergence_flags (prev cur : Candle) :
  let flags := divergence (RSI_30 cur) (RSI_30 prev) (close cur) (close prev) in
  let momentum_down := Float.lt (RSI_30 cur) (RSI_30 prev) in
  let momentum_up := Float.lt (RSI_30 prev) (RSI_30 cur) in
  let price_up := Float.lt (close prev) (close cur) in
  let price_down := Float.lt (close cur) (close prev) in
  (fst flags = true <-> momentum_down = true /\ price_up = true)
  /\ (snd flags = true <-> momentum_up = true /\ price_down = true)
  /\ (momentum_down && price_up = false ->
      momentum_up && price_down = false ->
      flags = (false, false))
  /\ fst flags && snd flags = false.
Proof.
  cbv zeta. unfold divergence, Float.gt. cbn [fst snd].
  split; [apply andb_true_iff|].
  split; [apply andb_true_iff|].
  split.
  - intros H1 H2. rewrite H1, H2. reflexivity.
  - destruct (Float.lt (RSI_30 cur) (RSI_30 prev)) eqn:E; cbn [andb];
      try reflexivity.
    rewrite (lt_asym _ _ E). cbn [andb]. apply andb_false_r.
Qed.

(** ** The inventory skew (lines 92-96) *)

Lemma mul_discount (x : Decimal) :
  exists y, mul x (from_float Float.f0_9) = Ok y.
Proof.
  rewrite from_float_0_9.
  destruct x as [s c e|s|]; eexists; reflexivity.
Qed.

(** C10: in one proposal computation at most one spread is skewed.  Whatever
    the ratio and the two flags are (also with both flags set), the skew
    returns, and it leaves the bid spread or the ask spread as it was; when
    the ask-side condition holds the ask-side rule is the one that fires. *)
Theorem skew_at_most_one (inventory_ratio : Float.float) (bearish bullish : bool)
    (bid ask : Decimal) :
  exists bid' ask',
    skew inventory_ratio bearish bullish bid ask = Ok (bid', ask')
    /\ (bid' = bid \/ ask' = ask)
    /\ (Float.gt inventory_ratio Float.f0_7 && bearish = true ->
        bid' = bid /\ mul ask (from_float Float.f0_9) = Ok ask').
Proof.
  unfold skew.
  destruct (Float.gt inventory_ratio Float.f0_7 && bearish) eqn:Ea.
  - destruct (mul_discount ask) as [a' Ha]. rewrite Ha. cbn [bind].
    exists bid, a'. split; [reflexivity|]. split; [now left|]. now split.
  - destruct (Float.lt inventory_ratio Float.f0_3 && bullish).
    + destruct (mul_discount bid) as [b' Hb]. rewrite Hb. cbn [bind].
      exists b', ask. split; [reflexivity|]. split; [now right|]. discriminate.
    + exists bid, ask. split; [reflexivity|]. split; [now left|]. discriminate.
Qed.

(** ** The order proposal (lines 98-107) *)







(** With spreads that are decimal numbers to begin with, the prices of the
    builder are the exact ones. *)
Example build_orders_exact_spreads :
  build_orders config (Scenario.dec 100 0) (Scenario.dec 1 (-4)) (Scenario.dec 1 (-4))
  = Ok [candidate config BUY (Scenario.dec 999900 (-4));
        candidate config SELL (Scenario.dec 1000100 (-4))].
Proof. vm_compute. reflexivity. Qed.

(** ** The refresh cycle (lines 58-64) *)

Lemma le_trans (a b c : spec_float) :
  Float.le a b = true -> Float.le b c = true -> Float.le a c = true.
Proof.
  unfold Float.le, SFleb.
  destruct a as [sa|sa| |sa ma ea], b as [sb|sb| |sb mb eb],
           c as [sc|sc| |sc mc ec]; cbn [SFcompare];
    try discriminate; try reflexivity;
    try (destruct sa); try (destruct sb); try (destruct sc);
    try discriminate; try reflexivity.
  all: rewrite !Pos.compare_cont_spec; cbn [Pos.switch_Eq].
  all: destruct (Z.compare_spec ea eb), (Z.compare_spec eb ec),
         (Z.compare_spec ea ec); try lia; try discriminate; try reflexivity.
  all: destruct (Pos.compare_spec ma mb), (Pos.compare_spec mb mc),
         (Pos.compare_spec ma mc); cbn [CompOpp];
       try lia; try discriminate; try reflexivity.
Qed.

Lemma create_proposal_short (cfg : Config) (m : Market) :
  (List.length (candles_df m) < 2)%nat ->
  create_proposal cfg m
  = Raise (match get_inventory_ratio m with Ok _ => LookupError | Raise e => e end).
Proof.
  intros H. unfold create_proposal.
  destruct (get_inventory_ratio m) as [r|e]; cbn [bind]; [|reflexivity].
  destruct (candles_df m) as [|c [|c' l]]; cbn [List.length] in H; try lia;
    reflexivity.
Qed.

(** C1, as the code has it: when a due tick finds fewer than 2 candles, the
    open orders are cancelled first, then [create_proposal] raises (the
    [LookupError] of the candle lookup, unless the inventory ratio raised
    before it); nothing is bought or sold, the strategy's fields are as
    before, and the timer is still due at any later tick. *)
Theorem short_candles_abort (cfg : Config) (m : Market) (st : Strategy) :
  (List.length (candles_df m) < 2)%nat ->
  Float.le (create_timestamp st) (current_timestamp m) = true ->
  let out := on_tick cfg m st in
  let e := match get_inventory_ratio m with
           | Ok _ => LookupError
           | Raise e => e
           end in
  create_proposal cfg m = Raise e
  /\ actions out = cancel_all_orders cfg m
  /\ state out = st
  /\ raised out = Some e
  /\ forall m' : Market,
       Float.le (current_timestamp m) (current_timestamp m') = true ->
       Float.le (create_timestamp (state out)) (current_timestamp m') = true.
Proof.
  intros Hlen Hdue. cbv zeta. unfold on_tick.
  rewrite Hdue, (create_proposal_short cfg m Hlen). cbn [actions state raised].
  repeat split. intros m' Hm'. exact (le_trans _ _ _ Hdue Hm').
Qed.

Lemma short_candles_abort_witness :
  let out := on_tick config Scenario.one_candle Scenario.due in
  let e := match get_inventory_ratio Scenario.one_candle with
           | Ok _ => LookupError
           | Raise e => e
           end in
  create_proposal config Scenario.one_candle = Raise e
  /\ actions out = cancel_all_orders config Scenario.one_candle
  /\ state out = Scenario.due
  /\ raised out = Some e
  /\ forall m' : Market,
       Float.le (current_timestamp Scenario.one_candle) (current_timestamp m') = true ->
       Float.le (create_timestamp (state out)) (current_timestamp m') = true.
Proof.
  apply (@short_candles_abort config Scenario.one_candle Scenario.due).
  - simpl. lia.
  - reflexivity.
Defined.

(** C1 as stated fails: with one candle and one open order the due tick
    issues a cancel, and what it ends with is the [LookupError] of the candle
    lookup. *)
Lemma short_candles_cancel_counterexample :
  (List.length (candles_df Scenario.one_candle) < 2)%nat
  /\ Float.le (create_timestamp Scenario.due)
              (current_timestamp Scenario.one_candle) = true
  /\ on_tick config Scenario.one_candle Scenario.due
     = {| state := Scenario.due;
          actions := [Cancel "binance_paper_trade" "ETH-USDT" "buy-1"];
          raised := Some LookupError |}
  /\ actions (on_tick config Scenario.one_candle Scenario.due) <> [].
Proof.
  split; [simpl; lia|]. split; [reflexivity|].
  split; [vm_compute; reflexivity|].
  vm_compute. discriminate.
Qed.

(** C4, as the code has it: a tick strictly before the timer does nothing
    and leaves the strategy as it was; a tick at or after the timer on which
    [create_proposal] returns runs the cycle once (every open order
    cancelled, the proposal clipped by the budget checker, what is left
    placed) and sets the timer to the refresh time plus the current time. *)
Theorem refresh_gate (cfg : Config) (m : Market) (st : Strategy) :
  (Float.lt (current_timestamp m) (create_timestamp st) = true ->
   on_tick cfg m st = {| state := st; actions := []; raised := None |})
  /\ (Float.le (create_timestamp st) (current_timestamp m) = true ->
      forall proposal : list OrderCandidate,
        create_proposal cfg m = Ok proposal ->
        on_tick cfg m st
        = {| state := {| create_timestamp :=
                           Float.add (order_refresh_time cfg) (current_timestamp m);
                         trade_history := trade_history st |};
             actions := cancel_all_orders cfg m
                        ++ place_orders cfg (adjust_proposal_to_budget m proposal);
             raised := None |}).
Proof.
  unfold on_tick. split.
  - intros H. rewrite (lt_not_le _ _ H). reflexivity.
  - intros H proposal Hp. rewrite H, Hp. reflexivity.
Qed.

Lemma refresh_gate_witness :
  on_tick config Scenario.calm Scenario.waiting
  = {| state := Scenario.waiting; actions := []; raised := None |}
  /\ exists proposal,
       create_proposal config Scenario.calm = Ok proposal
       /\ on_tick config Scenario.calm Scenario.due
          = {| state := {| create_timestamp :=
                             Float.add (order_refresh_time config)
                                       (current_timestamp Scenario.calm);
                           trade_history := trade_history Scenario.due |};
               actions := cancel_all_orders config Scenario.calm
                          ++ place_orders config
                               (adjust_proposal_to_budget Scenario.calm proposal);
               raised := None |}.
Proof.
  split.
  - apply (proj1 (refresh_gate config Scenario.calm Scenario.waiting)).
    vm_compute. reflexivity.
  - destruct (create_proposal config Scenario.calm) as [p|e] eqn:E.
    + exists p. split; [reflexivity|].
      apply (proj2 (refresh_gate config Scenario.calm Scenario.due));
        [reflexivity | exact E].
    + vm_compute in E. discriminate E.
Defined.

(** C4 as stated fails: a due tick with a single candle does not complete
    the cycle; the timer keeps its old value and nothing is placed. *)
Lemma refresh_gate_counterexample :
  Float.le (create_timestamp Scenario.due)
           (current_timestamp Scenario.one_candle) = true
  /\ create_timestamp (state (on_tick config Scenario.one_candle Scenario.due))
     = create_timestamp Scenario.due
  /\ create_timestamp (state (on_tick config Scenario.one_candle Scenario.due))
     <> Float.add (order_refresh_time config) (current_timestamp Scenario.one_candle)
  /\ actions (on_tick config Scenario.one_candle Scenario.due)
     = cancel_all_orders config Scenario.one_candle.
Proof.
  split; [reflexivity|]. split; [vm_compute; reflexivity|].
  split; [vm_compute; discriminate|]. vm_compute. reflexivity.
Qed.

(** C9: when the budget checker returns the empty list on a due tick whose
    proposal was built, the tick calls neither [buy] nor [sell] (its calls
    are the cancellations only), the trade history is as before, and the
    timer is set to the refresh time plus the current time. *)
Theorem empty_budget_places_nothing (cfg : Config) (m : Market) (st : Strategy)
    (proposal : list OrderCandidate) :
  Float.le (create_timestamp st) (current_timestamp m) = true ->
  create_proposal cfg m = Ok proposal ->
  adjust_proposal_to_budget m proposal = [] ->
  let out := on_tick cfg m st in
  actions out = cancel_all_orders cfg m
  /\ (forall a, In a (actions out) -> exists c p i, a = Cancel c p i)
  /\ trade_history (state out) = trade_history st
  /\ create_timestamp (state out)
     = Float.add (order_refresh_time cfg) (current_timestamp m)
  /\ raised out = None.
Proof.
  intros Hdue Hp Hclip. cbv zeta. unfold on_tick.
  rewrite Hdue, Hp, Hclip. cbn [actions state raised trade_history
                                 create_timestamp place_orders flat_map].
  rewrite app_nil_r. repeat split.
  unfold cancel_all_orders. intros a Ha.
  apply in_map_iff in Ha. destruct Ha as (o & <- & _). eauto.
Qed.

Lemma empty_budget_places_nothing_witness :
  let out := on_tick config Scenario.broke Scenario.due in
  actions out = cancel_all_orders config Scenario.broke
  /\ (forall a, In a (actions out) -> exists c p i, a = Cancel c p i)
  /\ trade_history (state out) = trade_history Scenario.due
  /\ create_timestamp (state out)
     = Float.add (order_refresh_time config) (current_timestamp Scenario.broke)
  /\ raised out = None.
Proof.
  destruct (create_proposal config Scenario.broke) as [p|e] eqn:E.
  - apply (@empty_budget_places_nothing config Scenario.broke Scenario.due p);
      [reflexivity | exact E | reflexivity].
  - vm_compute in E. discriminate E.
Defined.

(** ** Decimals built from binary floats (lines 84-86, 94, 96) *)

(** C7 on the code: at volatility 0 the spread is not the base spread
    [Decimal(0.0001)] but that number rounded to 28 digits, and at
    volatility 100 it is not twice the base spread: the base spread is the
    63-digit expansion of a binary float, and the product is rounded. *)
Theorem spreads_at_volatility_0_and_100 :
  let base := from_float (bid_spread config) in
  let at_0 := Scenario.dec 1000000000000000047921736024 (-31) in
  let at_100 := Scenario.dec 2000000000000000095843472048 (-31) in
  base = Scenario.dec
           100000000000000004792173602385929598312941379845142364501953125 (-66)
  /\ volatility_spreads config Float.f0 = Ok (at_0, at_0)
  /\ eqb at_0 base = false
  /\ eqb at_0 (Scenario.dec 1 (-4)) = false
  /\ volatility_spreads config Float.f100 = Ok (at_100, at_100)
  /\ eqb at_100 (exact_mul (of_int 2) base) = false.
Proof. vm_compute. repeat split. Qed.

(** C3 on the code: at inventory ratio 0.8 with a bearish divergence the
    bid spread is untouched, and the ask spread is the un-skewed one times
    [Decimal(0.9)] = 0.9000000000000000222..., rounded: not 90% of it. *)
Theorem skew_discount_at_0_8 :
  let unskewed := Scenario.dec 1000000000000000047921736024 (-31) in
  let skewed := Scenario.dec 9000000000000000653340229141 (-32) in
  get_inventory_ratio Scenario.heavy_bearish = Ok Float.f0_8
  /\ volatility_spreads config Float.f0 = Ok (unskewed, unskewed)
  /\ skew Float.f0_8 true false unskewed unskewed = Ok (unskewed, skewed)
  /\ exact_mul unskewed (Scenario.dec 9 (-1))
     = Scenario.dec 9000000000000000431295624216 (-32)
  /\ eqb skewed (exact_mul unskewed (Scenario.dec 9 (-1))) = false.
Proof. vm_compute. repeat split. Qed.

(** C2 on the code: at reference price 100 with the configured spreads, zero
    volatility, no divergence and no skew, the buy price is
    99.98999999999999999952078264 and the sell price is
    100.0100000000000000004792174: neither 99.99 nor 100.01. *)
Theorem proposal_prices_at_100 :
  let buy_price := Scenario.dec 9998999999999999999952078264 (-26) in
  let sell_price := Scenario.dec 1000100000000000000004792174 (-25) in
  create_proposal config Scenario.calm
  = Ok [candidate config BUY buy_price; candidate config SELL sell_price]
  /\ eqb buy_price (Scenario.dec 9999 (-2)) = false
  /\ eqb sell_price (Scenario.dec 10001 (-2)) = false.
Proof. vm_compute. repeat split. Qed.

(** ** The inventory ratio (lines 172-183) *)

Ltac Zify.zify_post_hook ::= Z.div_mod_to_equations.

(** *** Decimal digits and rounding *)











(** *** From a decimal in [0, 1] to a float in [0, 1] *)








(** *** The ratio *)







(** With nothing held the total is zero and the ratio is the neutral 0.5. *)
Example inventory_ratio_empty :
  get_inventory_ratio
    {| current_timestamp := Float.f100;
       mid_price := Scenario.dec 100 0;
       base_balance := Scenario.dec 0 0;
       quote_balance := Scenario.dec 0 (-2);
       candles_df := [];
       active_orders := [];
       adjust_candidates := fun proposal => proposal |}
  = Ok Float.f0_5.
Proof. vm_compute. reflexivity. Qed.

(** ** Further properties of the skew and of the trade history *)

(** The skew fires only under one of its two joint conditions: when neither
    holds, both spreads come back as they were. *)
Theorem skew_only_under_condition (inventory_ratio : Float.float)
    (bearish bullish : bool) (bid ask : Decimal) :
  Float.gt inventory_ratio Float.f0_7 && bearish = false ->
  Float.lt inventory_ratio Float.f0_3 && bullish = false ->
  skew inventory_ratio bearish bullish bid ask = Ok (bid, ask).
Proof. intros H1 H2. unfold skew. rewrite H1, H2. reflexivity. Qed.

Lemma skew_only_under_condition_witness :
  skew Float.f0_5 true true (Scenario.dec 1 (-4)) (Scenario.dec 1 (-4))
  = Ok (Scenario.dec 1 (-4), Scenario.dec 1 (-4)).
Proof.
  apply (skew_only_under_condition Float.f0_5 true true); reflexivity.
Defined.



(** A tick never writes the trade history; a fill appends one record, with
    the clock, the side and the price of the fill. *)
Theorem trade_history_writers (cfg : Config) (m : Market) (st : Strategy)
    (side : TradeType) (p : Decimal) :
  trade_history (state (on_tick cfg m st)) = trade_history st
  /\ trade_history (did_fill_order m side p st)
     = trade_history st
       ++ [{| tr_timestamp := current_timestamp m; tr_type := side; tr_price := p |}]
  /\ create_timestamp (did_fill_order m side p st) = create_timestamp st.
Proof.
  split; [|split; reflexivity].
  unfold on_tick.
  destruct (Float.le (create_timestamp st) (current_timestamp m)); [|reflexivity].
  destruct (create_proposal cfg m); reflexivity.
Qed.

(** * More of the strategy *)

(** ** What the decimal operations raise *)

Lemma fix_is_finite (s : bool) (c : N) (e : Z) :
  exists c' e', fix_ s c e = DFin s c' e'.
Proof.
  unfold fix_.
  repeat match goal with |- context [if ?b then _ else _] => destruct b end;
    eexists _, _; reflexivity.
Qed.








(** ** [create_proposal] as a whole *)

Lemma build_orders_shape (cfg : Config) (ref_price bid ask : Decimal)
    (p : list OrderCandidate) :
  build_orders cfg ref_price bid ask = Ok p ->
  exists buy_price sell_price,
    p = [candidate cfg BUY buy_price; candidate cfg SELL sell_price].
Proof.
  unfold build_orders.
  destruct (sub (of_int 1) bid) as [om|]; cbn [bind]; [|discriminate].
  destruct (mul ref_price om) as [bp|]; cbn [bind]; [|discriminate].
  destruct (add (of_int 1) ask) as [op|]; cbn [bind]; [|discriminate].
  destruct (mul ref_price op) as [sp|]; cbn [bind]; [|discriminate].
  intros H. inversion H. eauto.
Qed.

(** Whatever the market is, a proposal that [create_proposal] returns is a
    buy candidate followed by a sell candidate, both maker limit orders for
    the configured pair and amount. *)
Theorem create_proposal_shape (cfg : Config) (m : Market)
    (p : list OrderCandidate) :
  create_proposal cfg m = Ok p ->
  exists buy_price sell_price,
    p = [ {| trading_pair := pair cfg; is_maker := true; order_type := LIMIT;
             order_side := BUY; amount := from_float (order_amount cfg);
             price := buy_price |};
          {| trading_pair := pair cfg; is_maker := true; order_type := LIMIT;
             order_side := SELL; amount := from_float (order_amount cfg);
             price := sell_price |} ].
Proof.
  unfold create_proposal.
  repeat match goal with
         | |- context [bind ?c _] =>
             let x := fresh "x" in
             destruct c as [x|]; cbn [bind]; [|discriminate]
         end.
  destruct (divergence _ _ _ _) as [bearish bullish].
  destruct (skew _ _ _ _ _) as [sp|]; cbn [bind]; [|discriminate].
  apply build_orders_shape.
Qed.

Lemma create_proposal_shape_witness :
  exists buy_price sell_price,
    [candidate config BUY (Scenario.dec 9998999999999999999952078264 (-26));
     candidate config SELL (Scenario.dec 1000100000000000000004792174 (-25))]
    = [ {| trading_pair := pair config; is_maker := true; order_type := LIMIT;
           order_side := BUY; amount := from_float (order_amount config);
           price := buy_price |};
        {| trading_pair := pair config; is_maker := true; order_type := LIMIT;
           order_side := SELL; amount := from_float (order_amount config);
           price := sell_price |} ].
Proof.
  apply (create_proposal_shape config Scenario.calm). vm_compute. reflexivity.
Defined.








(** While the indicators are NaN the spreads are NaN, and so are both
    prices of the proposal. *)
Example create_proposal_warming_up :
  create_proposal config Scenario.warming_up
  = Ok [candidate config BUY DNaN; candidate config SELL DNaN].
Proof. vm_compute. reflexivity. Qed.

(** ** Indicators that are not numbers *)

(** A NaN among the compared values (as in the warm-up rows of an indicator)
    sets neither divergence flag, and then the skew leaves both spreads as
    they are; so does a NaN inventory ratio. *)
Theorem nan_disables_skew (rsi rsi_prev price price_prev : Float.float) :
  rsi = S754_nan \/ rsi_prev = S754_nan
  \/ price = S754_nan \/ price_prev = S754_nan ->
  divergence rsi rsi_prev price price_prev = (false, false)
  /\ forall (inventory_ratio : Float.float) (bid ask : Decimal),
       skew inventory_ratio
            (fst (divergence rsi rsi_prev price price_prev))
            (snd (divergence rsi rsi_prev price price_prev)) bid ask
       = Ok (bid, ask).
Proof.
  intros H.
  assert (E : divergence rsi rsi_prev price price_prev = (false, false)).
  { unfold divergence, Float.gt, Float.lt, SFltb.
    destruct H as [-> | [-> | [-> | ->]]];
      repeat match goal with x : Float.float |- _ => destruct x end;
      cbn [SFcompare]; rewrite ?andb_false_r; reflexivity. }
  split; [exact E|]. intros r bid ask. rewrite E. cbn [fst snd].
  unfold skew. rewrite !andb_false_r. reflexivity.
Qed.

Lemma nan_disables_skew_witness :
  divergence S754_nan Float.f10 Float.f100 Float.f10 = (false, false)
  /\ forall (inventory_ratio : Float.float) (bid ask : Decimal),
       skew inventory_ratio
            (fst (divergence S754_nan Float.f10 Float.f100 Float.f10))
            (snd (divergence S754_nan Float.f10 Float.f100 Float.f10)) bid ask
       = Ok (bid, ask).
Proof.
  apply (nan_disables_skew S754_nan Float.f10 Float.f100 Float.f10).
  left. reflexivity.
Defined.

(** ** What a tick sends to the connector *)

(** [place_orders] makes one call for each order whose side is BUY or SELL,
    in the order of the proposal, carrying the pair, amount, type and price of
    the order; an order of any other side is passed over. *)
Theorem place_orders_calls (cfg : Config) (proposal : list OrderCandidate) :
  place_orders cfg proposal
  = map (fun o => match order_side o with
                  | SELL => Sell (exchange cfg) (trading_pair o) (amount o)
                                 (order_type o) (price o)
                  | _ => Buy (exchange cfg) (trading_pair o) (amount o)
                             (order_type o) (price o)
                  end)
        (filter (fun o => match order_side o with RANGE => false | _ => true end)
                proposal)
  /\ (List.length (place_orders cfg proposal) <= List.length proposal)%nat.
Proof.
  assert (E : place_orders cfg proposal
              = map (fun o => match order_side o with
                              | SELL => Sell (exchange cfg) (trading_pair o)
                                             (amount o) (order_type o) (price o)
                              | _ => Buy (exchange cfg) (trading_pair o)
                                         (amount o) (order_type o) (price o)
                              end)
                    (filter (fun o => match order_side o with
                                      | RANGE => false
                                      | _ => true
                                      end) proposal)).
  { unfold place_orders. induction proposal as [|o l IH]; [reflexivity|].
    cbn [flat_map filter]. rewrite IH. unfold place_order.
    destruct (order_side o) eqn:Eo; cbn [map app]; rewrite ?Eo; reflexivity. }
  split; [exact E|]. rewrite E, length_map. apply filter_length_le.
Qed.

Lemma place_orders_in (cfg : Config) (proposal : list OrderCandidate) (a : Action) :
  In a (place_orders cfg proposal) ->
  exists o, In o proposal
            /\ ((order_side o = BUY
                 /\ a = Buy (exchange cfg) (trading_pair o) (amount o)
                            (order_type o) (price o))
                \/ (order_side o = SELL
                    /\ a = Sell (exchange cfg) (trading_pair o) (amount o)
                                (order_type o) (price o))).
Proof.
  unfold place_orders. intros H. apply in_flat_map in H.
  destruct H as (o & Ho & Ha). exists o. split; [assumption|].
  unfold place_order in Ha. destruct (order_side o) eqn:E; cbn [In] in Ha.
  - left. destruct Ha as [<-|[]]. auto.
  - right. destruct Ha as [<-|[]]. auto.
  - destruct Ha.
Qed.

(** A tick calls the connector only to cancel an order that is open or to
    place an order that the budget checker returned for the proposal of this
    tick, and all its cancellations come before its placements. *)
Theorem tick_actions (cfg : Config) (m : Market) (st : Strategy) :
  (forall a, In a (actions (on_tick cfg m st)) ->
     (exists o, In o (active_orders m)
                /\ a = Cancel (exchange cfg) (ao_trading_pair o) (client_order_id o))
     \/ (exists proposal o,
           create_proposal cfg m = Ok proposal
           /\ In o (adjust_candidates m proposal)
           /\ ((order_side o = BUY
                /\ a = Buy (exchange cfg) (trading_pair o) (amount o)
                           (order_type o) (price o))
               \/ (order_side o = SELL
                   /\ a = Sell (exchange cfg) (trading_pair o) (amount o)
                               (order_type o) (price o)))))
  /\ exists placed,
       (actions (on_tick cfg m st) = []
        \/ actions (on_tick cfg m st) = cancel_all_orders cfg m ++ placed)
       /\ forall a, In a placed -> forall c p i, a <> Cancel c p i.
Proof.
  unfold on_tick.
  destruct (Float.le (create_timestamp st) (current_timestamp m)).
  2:{ split; [intros a []|]. exists []. split; [now left | intros a []]. }
  assert (Hc : forall a, In a (cancel_all_orders cfg m) ->
                 exists o, In o (active_orders m)
                           /\ a = Cancel (exchange cfg) (ao_trading_pair o)
                                         (client_order_id o)).
  { unfold cancel_all_orders. intros a Ha. apply in_map_iff in Ha.
    destruct Ha as (o & <- & Ho). eauto. }
  destruct (create_proposal cfg m) as [proposal|e]; cbn [actions].
  - split.
    + intros a Ha. apply in_app_or in Ha. destruct Ha as [Ha|Ha]; [left; auto|].
      right. apply place_orders_in in Ha. destruct Ha as (o & Ho & Ha).
      exists proposal, o. auto.
    + exists (place_orders cfg (adjust_proposal_to_budget m proposal)).
      split; [now right|]. intros a Ha c p i ->.
      apply place_orders_in in Ha.
      destruct Ha as (o & _ & [[_ Ha]|[_ Ha]]); discriminate.
  - split; [intros a Ha; left; auto|].
    exists []. split; [right; now rewrite app_nil_r | intros a []].
Qed.

(** ** Two ticks in a row *)

(** After a tick that completed its cycle at clock [t], a tick whose clock is
    strictly before [order_refresh_time + t] calls nothing and changes
    nothing: the quotes are refreshed at most once per refresh interval. *)
Theorem no_refresh_within_interval (cfg : Config) (m m' : Market) (st : Strategy)
    (proposal : list OrderCandidate) :
  Float.le (create_timestamp st) (current_timestamp m) = true ->
  create_proposal cfg m = Ok proposal ->
  Float.lt (current_timestamp m')
           (Float.add (order_refresh_time cfg) (current_timestamp m)) = true ->
  on_tick cfg m' (state (on_tick cfg m st))
  = {| state := state (on_tick cfg m st); actions := []; raised := None |}.
Proof.
  intros Hdue Hp Hlt.
  assert (E : state (on_tick cfg m st)
              = {| create_timestamp :=
                     Float.add (order_refresh_time cfg) (current_timestamp m);
                   trade_history := trade_history st |})
    by (unfold on_tick; rewrite Hdue, Hp; reflexivity).
  rewrite E. unfold on_tick. cbn [create_timestamp].
  rewrite (lt_not_le _ _ Hlt). reflexivity.
Qed.

Lemma no_refresh_within_interval_witness :
  on_tick config Scenario.calm (state (on_tick config Scenario.calm Scenario.due))
  = {| state := state (on_tick config Scenario.calm Scenario.due);
       actions := []; raised := None |}.
Proof.
  destruct (create_proposal config Scenario.calm) as [p|e] eqn:E.
  - apply (no_refresh_within_interval config Scenario.calm Scenario.calm
             Scenario.due p); [reflexivity | exact E | reflexivity].
  - vm_compute in E. discriminate E.
Defined.

(** ** The status and the plot *)





Lemma tail_length {A : Type} (n : nat) (l : list A) :
  List.length (tail n l) = Nat.min n (List.length l).
Proof. unfold tail. rewrite length_skipn. lia. Qed.

(** The status shows the last five candles, or all of them when there are
    fewer, the newest first; the first row it shows is the row whose close,
    RSI and NATR [create_proposal] reads with [iloc[-1]]. *)
Theorem display_df_rows (df : list Candle) :
  List.length (display_df df) = Nat.min 5 (List.length df)
  /\ (forall k, (k < Nat.min 5 (List.length df))%nat ->
        nth_error (display_df df) k = nth_error (rev df) k)
  /\ (forall c, iloc_neg df 1 = Ok c -> hd_error (display_df df) = Some c).
Proof.
  unfold display_df. change (Nat.min display_rows candles_length) with 5%nat.
  assert (Hk : forall k, (k < Nat.min 5 (List.length df))%nat ->
                 nth_error (rev (tail 5 df)) k = nth_error (rev df) k).
  { intros k Hk. unfold tail.
    rewrite <- (firstn_skipn (List.length df - 5) df) at 3.
    rewrite rev_app_distr, nth_error_app1; [reflexivity|].
    rewrite length_rev, length_skipn. lia. }
  split; [rewrite length_rev; apply tail_length|]. split; [exact Hk|].
  intros c Hc. unfold iloc_neg in Hc. cbn [Nat.sub] in Hc.
  destruct (nth_error (rev df) 0) as [a|] eqn:E; [|discriminate].
  inversion Hc. subst a.
  assert (Hlen : (0 < List.length df)%nat).
  { destruct df; [discriminate|cbn; lia]. }
  specialize (Hk 0%nat ltac:(lia)). rewrite E in Hk.
  destruct (rev (tail 5 df)); [discriminate|]. cbn in *. exact Hk.
Qed.

(** ** Rounding next to a number of at most 28 digits *)




(** ** The quotes and the reference price *)




(** ** The ends of the inventory ratio *)










